(** * The cache assembler of pkg/chunk/cache/cache.go

    A shallow embedding of [Config], [Config.RegisterFlagsWithPrefix] and
    [New], and the properties of the tier list and the decorator chain
    that [New] builds. *)

From Stdlib Require Import ZArith List String Bool Lia.
Import ListNotations.
Local Open Scope string_scope.
Local Open Scope Z_scope.
Local Set Warnings "-register-all".

(** ** Data model *)

(** [time.Duration] is a signed 64-bit count of nanoseconds.  [New] only
    compares durations with zero and copies them, so no arithmetic (and no
    wrap-around) is involved. *)
Definition Duration := Z.

(** Modelled from the spec: the declaration of [BackgroundConfig] is not in
    cache.go; the spec gives it a queue size and a worker concurrency.
    [New] passes the value on untouched. *)
Record BackgroundConfig := mkBackgroundConfig {
  WriteBackGoroutines : Z;
  WriteBackBuffer : Z
}.

(** Modelled from the spec: the declaration of [MemcachedConfig] is not in
    cache.go; [New] reads and writes its [Expiration]. *)
Record MemcachedConfig := mkMemcachedConfig {
  Memcache_Expiration : Duration
}.

(** Modelled from the spec: the declaration of [MemcachedClientConfig] is
    not in cache.go; [New] reads its [Host], the spec adds connection
    parameters, kept here as one opaque timeout. *)
Record MemcachedClientConfig := mkMemcachedClientConfig {
  Host : string;
  MemcacheClient_Timeout : Duration
}.

(** Modelled from the spec: the declaration of [RedisConfig] is not in
    cache.go; [New] reads its [Endpoint] and reads and writes its
    [Expiration]. *)
Record RedisConfig := mkRedisConfig {
  Endpoint : string;
  Redis_Expiration : Duration
}.

(** Modelled from the spec: the declaration of [FifoCacheConfig] is not in
    cache.go; [New] reads and writes its [Validity], the spec adds a
    capacity. *)
Record FifoCacheConfig := mkFifoCacheConfig {
  Size : Z;
  Validity : Duration
}.

(** The client [NewMemcachedClient] builds from its configuration. *)
Inductive MemcachedClient :=
| NewMemcachedClient (cfg : MemcachedClientConfig).

(** The connection pool [NewRedisCache] takes as its last argument; [New]
    always passes [nil]. *)
Inductive RedisPool :=
| ExternalPool (id : nat).

(** The [Cache] interface.  The constructors of the package are not in
    cache.go: a value of the interface is represented by the constructor
    call that produced it, with the arguments of the call, so that the
    shape of what [New] builds can be read back.  [Tiered] is the composite
    over an ordered tier list; [Injected] stands for an implementation that
    comes from outside (the test seam [Config.Cache]). *)
Inductive Cache :=
| NewFifoCache (name : string) (cfg : FifoCacheConfig)
| NewMemcached (cfg : MemcachedConfig) (client : MemcachedClient) (name : string)
| NewRedisCache (cfg : RedisConfig) (name : string) (pool : option RedisPool)
| Instrument (name : string) (cache : Cache)
| NewBackground (name : string) (cfg : BackgroundConfig) (cache : Cache)
| Tiered (caches : list Cache)
| Injected (id : nat).

(** Modelled from the spec: [NewTiered] is not in cache.go.  The spec
    combines the tier list into a Tiered Composite and has a list of one
    tier give that tier itself (4.2 step 8, "the composite (or single tier)"
    and the "single-tier shortcut" of section 8); an empty list gives the
    composite of no tier, a cache that always misses. *)
Definition NewTiered (caches : list Cache) : Cache :=
  match caches with
  | [c] => c
  | _ => Tiered caches
  end.

(** [errors.New]. *)
Inductive error :=
| errors_New (text : string).

Definition Error (e : error) : string :=
  match e with errors_New text => text end.

(** [Config]: the field [Cache] is an interface value, [None] is [nil]. *)
Record Config := mkConfig {
  EnableFifoCache : bool;
  DefaultValidity : Duration;
  Background : BackgroundConfig;
  Memcache : MemcachedConfig;
  MemcacheClient : MemcachedClientConfig;
  Redis : RedisConfig;
  Fifocache : FifoCacheConfig;
  Prefix : string;
  Cache_ : option Cache
}.

(** Field updates, as the assignments of the source. *)
Definition set_EnableFifoCache (v : bool) (cfg : Config) : Config :=
  mkConfig v (DefaultValidity cfg) (Background cfg) (Memcache cfg)
    (MemcacheClient cfg) (Redis cfg) (Fifocache cfg) (Prefix cfg) (Cache_ cfg).

Definition set_DefaultValidity (v : Duration) (cfg : Config) : Config :=
  mkConfig (EnableFifoCache cfg) v (Background cfg) (Memcache cfg)
    (MemcacheClient cfg) (Redis cfg) (Fifocache cfg) (Prefix cfg) (Cache_ cfg).

Definition set_Background (v : BackgroundConfig) (cfg : Config) : Config :=
  mkConfig (EnableFifoCache cfg) (DefaultValidity cfg) v (Memcache cfg)
    (MemcacheClient cfg) (Redis cfg) (Fifocache cfg) (Prefix cfg) (Cache_ cfg).

Definition set_Memcache (v : MemcachedConfig) (cfg : Config) : Config :=
  mkConfig (EnableFifoCache cfg) (DefaultValidity cfg) (Background cfg) v
    (MemcacheClient cfg) (Redis cfg) (Fifocache cfg) (Prefix cfg) (Cache_ cfg).

Definition set_MemcacheClient (v : MemcachedClientConfig) (cfg : Config) : Config :=
  mkConfig (EnableFifoCache cfg) (DefaultValidity cfg) (Background cfg) (Memcache cfg)
    v (Redis cfg) (Fifocache cfg) (Prefix cfg) (Cache_ cfg).

Definition set_Redis (v : RedisConfig) (cfg : Config) : Config :=
  mkConfig (EnableFifoCache cfg) (DefaultValidity cfg) (Background cfg) (Memcache cfg)
    (MemcacheClient cfg) v (Fifocache cfg) (Prefix cfg) (Cache_ cfg).

Definition set_Fifocache (v : FifoCacheConfig) (cfg : Config) : Config :=
  mkConfig (EnableFifoCache cfg) (DefaultValidity cfg) (Background cfg) (Memcache cfg)
    (MemcacheClient cfg) (Redis cfg) v (Prefix cfg) (Cache_ cfg).

Definition set_Prefix (v : string) (cfg : Config) : Config :=
  mkConfig (EnableFifoCache cfg) (DefaultValidity cfg) (Background cfg) (Memcache cfg)
    (MemcacheClient cfg) (Redis cfg) (Fifocache cfg) v (Cache_ cfg).

Definition set_Fifocache_Validity (v : Duration) (cfg : Config) : Config :=
  set_Fifocache (mkFifoCacheConfig (Size (Fifocache cfg)) v) cfg.

Definition set_Memcache_Expiration (v : Duration) (cfg : Config) : Config :=
  set_Memcache (mkMemcachedConfig v) cfg.

Definition set_Redis_Expiration (v : Duration) (cfg : Config) : Config :=
  set_Redis (mkRedisConfig (Endpoint (Redis cfg)) v) cfg.

(** [append(caches, c)] on a slice. *)
Definition append (caches : list Cache) (c : Cache) : list Cache :=
  (caches ++ [c])%list.

(** [s != e] against the empty string. *)
Definition nonempty (s : string) : bool :=
  negb (String.eqb s "").

(** ** New *)

(** The local variables of [New] that the three construction steps read
    and write: the by-value copy of the configuration and the tier list
    [caches]. *)
Definition Locals := (Config * list Cache)%type.

(** Lines 64-71: the local tier. *)
Definition fifoStep (st : Locals) : Locals :=
  let '(cfg, caches) := st in
  if EnableFifoCache cfg then
    let cfg :=
      if (Validity (Fifocache cfg) =? 0) && negb (DefaultValidity cfg =? 0)
      then set_Fifocache_Validity (DefaultValidity cfg) cfg
      else cfg in
    let cache := NewFifoCache (Prefix cfg ++ "fifocache") (Fifocache cfg) in
    (cfg, append caches (Instrument (Prefix cfg ++ "fifocache") cache))
  else (cfg, caches).

(** Lines 77-87: the memcached tier. *)
Definition memcacheStep (st : Locals) : Locals :=
  let '(cfg, caches) := st in
  if nonempty (Host (MemcacheClient cfg)) then
    let cfg :=
      if (Memcache_Expiration (Memcache cfg) =? 0) && negb (DefaultValidity cfg =? 0)
      then set_Memcache_Expiration (DefaultValidity cfg) cfg
      else cfg in
    let client := NewMemcachedClient (MemcacheClient cfg) in
    let cache := NewMemcached (Memcache cfg) client (Prefix cfg) in
    let cacheName := Prefix cfg ++ "memcache" in
    (cfg, append caches (NewBackground cacheName (Background cfg) (Instrument cacheName cache)))
  else (cfg, caches).

(** Lines 89-96: the redis tier. *)
Definition redisStep (st : Locals) : Locals :=
  let '(cfg, caches) := st in
  if nonempty (Endpoint (Redis cfg)) then
    let cfg :=
      if (Redis_Expiration (Redis cfg) =? 0) && negb (DefaultValidity cfg =? 0)
      then set_Redis_Expiration (DefaultValidity cfg) cfg
      else cfg in
    let cacheName := Prefix cfg ++ "redis" in
    let cache := NewRedisCache (Redis cfg) cacheName None in
    (cfg, append caches (NewBackground cacheName (Background cfg) (Instrument cacheName cache)))
  else (cfg, caches).

(** Lines 98-102: the composite and its optional outer wrap. *)
Definition finish (st : Locals) : option Cache * option error :=
  let '(cfg, caches) := st in
  let cache := NewTiered caches in
  let cache :=
    if (1 <? Z.of_nat (List.length caches))
    then Instrument (Prefix cfg ++ "tiered") cache
    else cache in
  (Some cache, None).

(** [New]: the pair [(Cache, error)] of the source, [None] for [nil]. *)
Definition New (cfg : Config) : option Cache * option error :=
  match Cache_ cfg with
  | Some c => (Some c, None)
  | None =>
    let caches : list Cache := [] in
    let st := fifoStep (cfg, caches) in
    if nonempty (Host (MemcacheClient (fst st))) && nonempty (Endpoint (Redis (fst st)))
    then (None, Some (errors_New "use of multiple cache storage systems is not supported"))
    else finish (redisStep (memcacheStep st))
  end.

(** The value of [caches] when line 98 is reached. *)
Definition tiers (cfg : Config) : list Cache :=
  snd (redisStep (memcacheStep (fifoStep (cfg, [])))).

(** ** Reading back what was built *)

(** The layers of a decorator chain, outermost first. *)
Inductive Layer :=
| LInstrument
| LBackground
| LFifo
| LMemcached
| LRedis
| LTiered
| LInjected.

Fixpoint chain (c : Cache) : list Layer :=
  match c with
  | NewFifoCache _ _ => [LFifo]
  | NewMemcached _ _ _ => [LMemcached]
  | NewRedisCache _ _ _ => [LRedis]
  | Instrument _ c => LInstrument :: chain c
  | NewBackground _ _ c => LBackground :: chain c
  | Tiered _ => [LTiered]
  | Injected _ => [LInjected]
  end.

(** The backend at the bottom of a decorator chain. *)
Fixpoint backend (c : Cache) : Cache :=
  match c with
  | Instrument _ c => backend c
  | NewBackground _ _ c => backend c
  | _ => c
  end.

(** The validity (expiration) a tier's backend was constructed with. *)
Definition validity (c : Cache) : option Duration :=
  match backend c with
  | NewFifoCache _ fc => Some (Validity fc)
  | NewMemcached mc _ _ => Some (Memcache_Expiration mc)
  | NewRedisCache rc _ _ => Some (Redis_Expiration rc)
  | _ => None
  end.

(** The value the configuration itself holds for the backend of a tier. *)
Definition configured (cfg : Config) (c : Cache) : option Duration :=
  match backend c with
  | NewFifoCache _ _ => Some (Validity (Fifocache cfg))
  | NewMemcached _ _ _ => Some (Memcache_Expiration (Memcache cfg))
  | NewRedisCache _ _ _ => Some (Redis_Expiration (Redis cfg))
  | _ => None
  end.

Definition isLocal (c : Cache) : bool :=
  match backend c with
  | NewFifoCache _ _ => true
  | _ => false
  end.

Definition isMemcached (c : Cache) : bool :=
  match backend c with
  | NewMemcached _ _ _ => true
  | _ => false
  end.

Definition isRedis (c : Cache) : bool :=
  match backend c with
  | NewRedisCache _ _ _ => true
  | _ => false
  end.

Definition isRemote (c : Cache) : bool :=
  isMemcached c || isRedis c.

(** Every layer of a cache with the name its constructor call was given,
    outermost first; the tiers of a composite in tier order.  The composite
    itself takes no name. *)
Fixpoint layers (c : Cache) : list (Layer * string) :=
  match c with
  | NewFifoCache name _ => [(LFifo, name)]
  | NewMemcached _ _ name => [(LMemcached, name)]
  | NewRedisCache _ name _ => [(LRedis, name)]
  | Instrument name c => (LInstrument, name) :: layers c
  | NewBackground name _ c => (LBackground, name) :: layers c
  | Tiered caches => flat_map layers caches
  | Injected _ => []
  end.

Definition names (c : Cache) : list string :=
  map snd (layers c).

(** The names the naming scheme derives from a prefix. *)
Definition kinds : list string :=
  ["fifocache"; "memcache"; "redis"; "tiered"].

Definition derivedNames (prefix : string) : list string :=
  map (String.append prefix) kinds.

(** The spec's resolution rule: the backend's own value, else
    [defaultValidity]. *)
Definition resolve (own dflt : Duration) : Duration :=
  if own =? 0 then dflt else own.

(** The three tiers in closed form. *)
Definition fifoTier (cfg : Config) : Cache :=
  Instrument (Prefix cfg ++ "fifocache")
    (NewFifoCache (Prefix cfg ++ "fifocache")
       (mkFifoCacheConfig (Size (Fifocache cfg))
          (resolve (Validity (Fifocache cfg)) (DefaultValidity cfg)))).

Definition memcacheTier (cfg : Config) : Cache :=
  NewBackground (Prefix cfg ++ "memcache") (Background cfg)
    (Instrument (Prefix cfg ++ "memcache")
       (NewMemcached
          (mkMemcachedConfig (resolve (Memcache_Expiration (Memcache cfg)) (DefaultValidity cfg)))
          (NewMemcachedClient (MemcacheClient cfg))
          (Prefix cfg))).

Definition redisTier (cfg : Config) : Cache :=
  NewBackground (Prefix cfg ++ "redis") (Background cfg)
    (Instrument (Prefix cfg ++ "redis")
       (NewRedisCache
          (mkRedisConfig (Endpoint (Redis cfg))
             (resolve (Redis_Expiration (Redis cfg)) (DefaultValidity cfg)))
          (Prefix cfg ++ "redis") None)).

Definition tiersSpec (cfg : Config) : list Cache :=
  ((if EnableFifoCache cfg then [fifoTier cfg] else [])
   ++ (if nonempty (Host (MemcacheClient cfg)) then [memcacheTier cfg] else [])
   ++ (if nonempty (Endpoint (Redis cfg)) then [redisTier cfg] else []))%list.

(** ** RegisterFlagsWithPrefix *)

(** What [RegisterFlagsWithPrefix] calls and cache.go does not define: the
    [flag.FlagSet] of the standard library and the registration methods of
    the five sub-configurations.  A call returns or panics (the flag package
    panics when a name is defined twice); [None] is a panic.  A method of a
    sub-configuration is handed its receiver and the flag set, and nothing
    else of the enclosing [Config]; [BoolVar] and [DurationVar] are handed
    the flag set, the name, the default value and the usage text, and store
    the default value through the pointer they are given. *)
Class Flags := {
  FlagSet : Type;
  BoolVar : FlagSet -> string -> bool -> string -> option FlagSet;
  DurationVar : FlagSet -> string -> Duration -> string -> option FlagSet;
  Background_RegisterFlagsWithPrefix :
    string -> string -> FlagSet -> BackgroundConfig -> option (BackgroundConfig * FlagSet);
  Memcache_RegisterFlagsWithPrefix :
    string -> string -> FlagSet -> MemcachedConfig -> option (MemcachedConfig * FlagSet);
  MemcacheClient_RegisterFlagsWithPrefix :
    string -> string -> FlagSet -> MemcachedClientConfig -> option (MemcachedClientConfig * FlagSet);
  Redis_RegisterFlagsWithPrefix :
    string -> string -> FlagSet -> RedisConfig -> option (RedisConfig * FlagSet);
  Fifocache_RegisterFlagsWithPrefix :
    string -> string -> FlagSet -> FifoCacheConfig -> option (FifoCacheConfig * FlagSet)
}.

(** Sequencing of calls that may panic. *)
Definition andThen {A B : Type} (m : option A) (k : A -> option B) : option B :=
  match m with
  | Some a => k a
  | None => None
  end.

Notation "x <- m ;; k" := (andThen m (fun x => k))
  (at level 61, m at next level, right associativity).
Notation "' p <- m ;; k" := (andThen m (fun p => k))
  (at level 61, p pattern, m at next level, right associativity).

(** [Config.RegisterFlagsWithPrefix], lines 43-54: the configuration and
    the flag set are both mutated in place; the result is their final
    state, or [None] when a call panicked. *)
Definition RegisterFlagsWithPrefix `{Flags} (prefix description : string)
    (f : FlagSet) (cfg : Config) : option (Config * FlagSet) :=
  '(bg, f) <- Background_RegisterFlagsWithPrefix prefix description f (Background cfg) ;;
  let cfg := set_Background bg cfg in
  '(mc, f) <- Memcache_RegisterFlagsWithPrefix prefix description f (Memcache cfg) ;;
  let cfg := set_Memcache mc cfg in
  '(mcc, f) <- MemcacheClient_RegisterFlagsWithPrefix prefix description f (MemcacheClient cfg) ;;
  let cfg := set_MemcacheClient mcc cfg in
  '(rd, f) <- Redis_RegisterFlagsWithPrefix prefix description f (Redis cfg) ;;
  let cfg := set_Redis rd cfg in
  '(ff, f) <- Fifocache_RegisterFlagsWithPrefix prefix description f (Fifocache cfg) ;;
  let cfg := set_Fifocache ff cfg in
  f <- BoolVar f (prefix ++ "cache.enable-fifocache") false
         (description ++ "Enable in-memory cache.") ;;
  let cfg := set_EnableFifoCache false cfg in
  f <- DurationVar f (prefix ++ "default-validity") 0
         (description ++ "The default validity of entries for caches unless overridden.") ;;
  let cfg := set_DefaultValidity 0 cfg in
  let cfg := set_Prefix prefix cfg in
  Some (cfg, f).

(** Every call that [RegisterFlagsWithPrefix] makes returns. *)
Definition calleesReturn `{Flags} (prefix description : string)
    (f : FlagSet) (cfg : Config) : Prop :=
  exists bg f1 mc f2 mcc f3 rd f4 ff f5 f6 f7,
    Background_RegisterFlagsWithPrefix prefix description f (Background cfg) = Some (bg, f1)
    /\ Memcache_RegisterFlagsWithPrefix prefix description f1 (Memcache cfg) = Some (mc, f2)
    /\ MemcacheClient_RegisterFlagsWithPrefix prefix description f2 (MemcacheClient cfg) = Some (mcc, f3)
    /\ Redis_RegisterFlagsWithPrefix prefix description f3 (Redis cfg) = Some (rd, f4)
    /\ Fifocache_RegisterFlagsWithPrefix prefix description f4 (Fifocache cfg) = Some (ff, f5)
    /\ BoolVar f5 (prefix ++ "cache.enable-fifocache") false
         (description ++ "Enable in-memory cache.") = Some f6
    /\ DurationVar f6 (prefix ++ "default-validity") 0
         (description ++ "The default validity of entries for caches unless overridden.") = Some f7.

(** An instance to run the definitions on: a flag set is the list of the
    names defined so far, defining a name twice panics, and the
    sub-configurations define no flag. *)
Definition define (f : list string) (name : string) : option (list string) :=
  if existsb (String.eqb name) f then None else Some (name :: f).

Definition listFlags : Flags := {|
  FlagSet := list string;
  BoolVar := fun f name _ _ => define f name;
  DurationVar := fun f name _ _ => define f name;
  Background_RegisterFlagsWithPrefix := fun _ _ f c => Some (c, f);
  Memcache_RegisterFlagsWithPrefix := fun _ _ f c => Some (c, f);
  MemcacheClient_RegisterFlagsWithPrefix := fun _ _ f c => Some (c, f);
  Redis_RegisterFlagsWithPrefix := fun _ _ f c => Some (c, f);
  Fifocache_RegisterFlagsWithPrefix := fun _ _ f c => Some (c, f)
|}.

(** Configurations to run the definitions on. *)
Definition zeroConfig : Config :=
  mkConfig false 0 (mkBackgroundConfig 10 10000) (mkMemcachedConfig 0)
    (mkMemcachedClientConfig "" 0) (mkRedisConfig "" 0) (mkFifoCacheConfig 0 0)
    "" None.

Definition sampleConfig (fifo : bool) (host endpoint : string) : Config :=
  mkConfig fifo 7 (mkBackgroundConfig 10 10000) (mkMemcachedConfig 0)
    (mkMemcachedClientConfig host 100) (mkRedisConfig endpoint 5) (mkFifoCacheConfig 1024 0)
    "chunks" None.

(** [sampleConfig true "x" ""] as a registration under the prefix "store."
    leaves it on the list instance. *)
Definition registeredSample : Config :=
  mkConfig false 0 (mkBackgroundConfig 10 10000) (mkMemcachedConfig 0)
    (mkMemcachedClientConfig "x" 100) (mkRedisConfig "" 5) (mkFifoCacheConfig 1024 0)
    "store." None.

(** The text of the error [New] returns when both remote backends are
    configured, as a statement about a candidate text. *)
Definition errorTextIs (text : string) : Prop :=
  forall cfg e,
    Host (MemcacheClient cfg) <> "" ->
    Endpoint (Redis cfg) <> "" ->
    snd (New cfg) = Some e ->
    Error e = text.

(** The naming scheme as a statement about what [New] returns: every
    name given to a layer is the prefix followed by a backend kind, and the
    derived names are pairwise distinct. *)
Definition namedByKind (cfg : Config) (c : Cache) : Prop :=
  forall n, In n (names c) -> In n (derivedNames (Prefix cfg)).

Definition namingScheme : Prop :=
  forall cfg c,
    Cache_ cfg = None ->
    New cfg = (Some c, None) ->
    namedByKind cfg c /\ NoDup (derivedNames (Prefix cfg)).

(** The layers [New] builds, tier by tier. *)
Definition outerLayers (cfg : Config) : list (Layer * string) :=
  if (1 <? Z.of_nat (List.length (tiers cfg)))
  then [(LInstrument, Prefix cfg ++ "tiered")]
  else [].

Definition fifoLayers (cfg : Config) : list (Layer * string) :=
  if EnableFifoCache cfg
  then [(LInstrument, Prefix cfg ++ "fifocache"); (LFifo, Prefix cfg ++ "fifocache")]
  else [].

Definition memcacheLayers (cfg : Config) : list (Layer * string) :=
  if nonempty (Host (MemcacheClient cfg))
  then [(LBackground, Prefix cfg ++ "memcache"); (LInstrument, Prefix cfg ++ "memcache");
        (LMemcached, Prefix cfg)]
  else [].

Definition redisLayers (cfg : Config) : list (Layer * string) :=
  if nonempty (Endpoint (Redis cfg))
  then [(LBackground, Prefix cfg ++ "redis"); (LInstrument, Prefix cfg ++ "redis");
        (LRedis, Prefix cfg ++ "redis")]
  else [].

(** Equality of layer kinds. *)
Definition Layer_eqb (a b : Layer) : bool :=
  match a, b with
  | LInstrument, LInstrument
  | LBackground, LBackground
  | LFifo, LFifo
  | LMemcached, LMemcached
  | LRedis, LRedis
  | LTiered, LTiered
  | LInjected, LInjected => true
  | _, _ => false
  end.

(** The names given to the layers of one kind, outermost first. *)
Definition namesOf (k : Layer) (c : Cache) : list string :=
  map snd (filter (fun x => Layer_eqb k (fst x)) (layers c)).

(** The configuration with the three validities written out: each one
    replaced by what [New] would resolve it to. *)
Definition resolveAll (cfg : Config) : Config :=
  set_Redis_Expiration (resolve (Redis_Expiration (Redis cfg)) (DefaultValidity cfg))
    (set_Memcache_Expiration (resolve (Memcache_Expiration (Memcache cfg)) (DefaultValidity cfg))
       (set_Fifocache_Validity (resolve (Validity (Fifocache cfg)) (DefaultValidity cfg)) cfg)).

(** The number of backends the configuration switches on. *)
Definition enabledCount (cfg : Config) : nat :=
  ((if EnableFifoCache cfg then 1 else 0)
   + (if nonempty (Host (MemcacheClient cfg)) then 1 else 0)
   + (if nonempty (Endpoint (Redis cfg)) then 1 else 0))%nat.

(** ** New with its calls *)

(** The calls [New] makes to the constructors of the package, with their
    arguments. *)
Inductive Call :=
| Call_NewFifoCache (name : string) (cfg : FifoCacheConfig)
| Call_Instrument (name : string) (cache : Cache)
| Call_NewMemcachedClient (cfg : MemcachedClientConfig)
| Call_NewMemcached (cfg : MemcachedConfig) (client : MemcachedClient) (name : string)
| Call_NewBackground (name : string) (cfg : BackgroundConfig) (cache : Cache)
| Call_NewRedisCache (cfg : RedisConfig) (name : string) (pool : option RedisPool)
| Call_NewTiered (caches : list Cache).

(** The local variables of [New] together with the calls made so far, in
    the order they were made. *)
Definition Traced := (Locals * list Call)%type.

Definition called (calls : list Call) (c : Call) : list Call :=
  (calls ++ [c])%list.

(** Lines 64-71 with their calls: [NewFifoCache] on line 69, [Instrument]
    on line 70. *)
Definition fifoStepT (st : Traced) : Traced :=
  let '((cfg, caches), calls) := st in
  if EnableFifoCache cfg then
    let cfg :=
      if (Validity (Fifocache cfg) =? 0) && negb (DefaultValidity cfg =? 0)
      then set_Fifocache_Validity (DefaultValidity cfg) cfg
      else cfg in
    let calls := called calls (Call_NewFifoCache (Prefix cfg ++ "fifocache") (Fifocache cfg)) in
    let cache := NewFifoCache (Prefix cfg ++ "fifocache") (Fifocache cfg) in
    let calls := called calls (Call_Instrument (Prefix cfg ++ "fifocache") cache) in
    ((cfg, append caches (Instrument (Prefix cfg ++ "fifocache") cache)), calls)
  else ((cfg, caches), calls).

(** Lines 77-87 with their calls: [NewMemcachedClient] on line 82,
    [NewMemcached] on line 83, and on line 86 [Instrument], an argument of
    [NewBackground], before [NewBackground]. *)
Definition memcacheStepT (st : Traced) : Traced :=
  let '((cfg, caches), calls) := st in
  if nonempty (Host (MemcacheClient cfg)) then
    let cfg :=
      if (Memcache_Expiration (Memcache cfg) =? 0) && negb (DefaultValidity cfg =? 0)
      then set_Memcache_Expiration (DefaultValidity cfg) cfg
      else cfg in
    let calls := called calls (Call_NewMemcachedClient (MemcacheClient cfg)) in
    let client := NewMemcachedClient (MemcacheClient cfg) in
    let calls := called calls (Call_NewMemcached (Memcache cfg) client (Prefix cfg)) in
    let cache := NewMemcached (Memcache cfg) client (Prefix cfg) in
    let cacheName := Prefix cfg ++ "memcache" in
    let calls := called calls (Call_Instrument cacheName cache) in
    let calls :=
      called calls (Call_NewBackground cacheName (Background cfg) (Instrument cacheName cache)) in
    ((cfg, append caches (NewBackground cacheName (Background cfg) (Instrument cacheName cache))),
     calls)
  else ((cfg, caches), calls).

(** Lines 89-96 with their calls: [NewRedisCache] on line 94, then
    [Instrument] and [NewBackground] on line 95. *)
Definition redisStepT (st : Traced) : Traced :=
  let '((cfg, caches), calls) := st in
  if nonempty (Endpoint (Redis cfg)) then
    let cfg :=
      if (Redis_Expiration (Redis cfg) =? 0) && negb (DefaultValidity cfg =? 0)
      then set_Redis_Expiration (DefaultValidity cfg) cfg
      else cfg in
    let cacheName := Prefix cfg ++ "redis" in
    let calls := called calls (Call_NewRedisCache (Redis cfg) cacheName None) in
    let cache := NewRedisCache (Redis cfg) cacheName None in
    let calls := called calls (Call_Instrument cacheName cache) in
    let calls :=
      called calls (Call_NewBackground cacheName (Background cfg) (Instrument cacheName cache)) in
    ((cfg, append caches (NewBackground cacheName (Background cfg) (Instrument cacheName cache))),
     calls)
  else ((cfg, caches), calls).

(** Lines 98-102 with their calls: [NewTiered] on line 98, the outer
    [Instrument] on line 100. *)
Definition finishT (st : Traced) : (option Cache * option error) * list Call :=
  let '((cfg, caches), calls) := st in
  let calls := called calls (Call_NewTiered caches) in
  let cache := NewTiered caches in
  if (1 <? Z.of_nat (List.length caches))
  then ((Some (Instrument (Prefix cfg ++ "tiered") cache), None),
        called calls (Call_Instrument (Prefix cfg ++ "tiered") cache))
  else ((Some cache, None), calls).

(** [New] with the calls it has made when it returns. *)
Definition NewTraced (cfg : Config) : (option Cache * option error) * list Call :=
  match Cache_ cfg with
  | Some c => ((Some c, None), [])
  | None =>
    let caches : list Cache := [] in
    let st := fifoStepT ((cfg, caches), []) in
    if nonempty (Host (MemcacheClient (fst (fst st))))
       && nonempty (Endpoint (Redis (fst (fst st))))
    then ((None, Some (errors_New "use of multiple cache storage systems is not supported")),
          snd st)
    else finishT (redisStepT (memcacheStepT st))
  end.

(** ** Basic facts *)

Lemma append_inj (p a b : string) : p ++ a = p ++ b -> a = b.
Proof.
  induction p as [|ch p IH]; simpl; intros H; [assumption|].
  injection H as H. apply IH, H.
Qed.

Lemma nonempty_true (s : string) : nonempty s = true <-> s <> "".
Proof.
  unfold nonempty. rewrite negb_true_iff.
  destruct (String.eqb_spec s ""); split; congruence.
Qed.

Lemma nonempty_false (s : string) : nonempty s = false <-> s = "".
Proof.
  unfold nonempty. rewrite negb_false_iff. apply String.eqb_eq.
Qed.

Lemma resolve_guard (own dflt : Duration) :
  (if (own =? 0) && negb (dflt =? 0) then dflt else own) = resolve own dflt.
Proof.
  unfold resolve.
  destruct (Z.eqb_spec own 0) as [Ho|Ho]; simpl; [|reflexivity].
  destruct (Z.eqb_spec dflt 0) as [Hd|Hd]; simpl; congruence.
Qed.

Lemma resolve_nonzero (own dflt : Duration) : own <> 0 -> resolve own dflt = own.
Proof. unfold resolve. intros H. apply Z.eqb_neq in H. now rewrite H. Qed.

Lemma resolve_zero (own dflt : Duration) : own = 0 -> resolve own dflt = dflt.
Proof. unfold resolve. intros ->. reflexivity. Qed.

Lemma resolve_no_default (own : Duration) : resolve own 0 = own.
Proof. unfold resolve. destruct (Z.eqb_spec own 0); congruence. Qed.

(** Each step in closed form: what it leaves in [cfg] and what it appends. *)
Lemma fifoStep_eq (cfg : Config) (caches : list Cache) :
  fifoStep (cfg, caches) =
  if EnableFifoCache cfg
  then (set_Fifocache_Validity (resolve (Validity (Fifocache cfg)) (DefaultValidity cfg)) cfg,
        append caches (fifoTier cfg))
  else (cfg, caches).
Proof.
  unfold fifoStep, fifoTier. destruct (EnableFifoCache cfg) eqn:E; [|reflexivity].
  rewrite <- resolve_guard.
  destruct ((Validity (Fifocache cfg) =? 0) && negb (DefaultValidity cfg =? 0)); simpl.
  - reflexivity.
  - destruct cfg as [e d b m mc r [sz v] p c]; reflexivity.
Qed.

Lemma memcacheStep_eq (cfg : Config) (caches : list Cache) :
  memcacheStep (cfg, caches) =
  if nonempty (Host (MemcacheClient cfg))
  then (set_Memcache_Expiration (resolve (Memcache_Expiration (Memcache cfg)) (DefaultValidity cfg)) cfg,
        append caches (memcacheTier cfg))
  else (cfg, caches).
Proof.
  unfold memcacheStep, memcacheTier.
  destruct (nonempty (Host (MemcacheClient cfg))); [|reflexivity].
  rewrite <- resolve_guard.
  destruct ((Memcache_Expiration (Memcache cfg) =? 0) && negb (DefaultValidity cfg =? 0)); simpl.
  - reflexivity.
  - destruct cfg as [e d b [v] mc r f p c]; simpl in *. reflexivity.
Qed.

Lemma redisStep_eq (cfg : Config) (caches : list Cache) :
  redisStep (cfg, caches) =
  if nonempty (Endpoint (Redis cfg))
  then (set_Redis_Expiration (resolve (Redis_Expiration (Redis cfg)) (DefaultValidity cfg)) cfg,
        append caches (redisTier cfg))
  else (cfg, caches).
Proof.
  unfold redisStep, redisTier.
  destruct (nonempty (Endpoint (Redis cfg))); [|reflexivity].
  rewrite <- resolve_guard.
  destruct ((Redis_Expiration (Redis cfg) =? 0) && negb (DefaultValidity cfg =? 0)); simpl.
  - reflexivity.
  - destruct cfg as [e d b m mc [ep v] f p c]; simpl in *. reflexivity.
Qed.

(** The tier list of line 98 in closed form. *)
Lemma tiers_eq (cfg : Config) : tiers cfg = tiersSpec cfg.
Proof.
  unfold tiers, tiersSpec.
  rewrite fifoStep_eq.
  destruct (EnableFifoCache cfg);
    rewrite memcacheStep_eq; simpl;
    destruct (nonempty (Host (MemcacheClient cfg)));
    rewrite redisStep_eq; simpl;
    destruct (nonempty (Endpoint (Redis cfg))); reflexivity.
Qed.

(** The prefix the outer wrap is named with is the configured one. *)
Lemma steps_Prefix (cfg : Config) :
  Prefix (fst (redisStep (memcacheStep (fifoStep (cfg, []))))) = Prefix cfg.
Proof.
  rewrite fifoStep_eq.
  destruct (EnableFifoCache cfg);
    rewrite memcacheStep_eq; simpl;
    destruct (nonempty (Host (MemcacheClient cfg)));
    rewrite redisStep_eq; simpl;
    destruct (nonempty (Endpoint (Redis cfg))); reflexivity.
Qed.

Lemma fifoStep_remote (cfg : Config) (caches : list Cache) :
  Host (MemcacheClient (fst (fifoStep (cfg, caches)))) = Host (MemcacheClient cfg)
  /\ Endpoint (Redis (fst (fifoStep (cfg, caches)))) = Endpoint (Redis cfg).
Proof.
  rewrite fifoStep_eq. destruct (EnableFifoCache cfg); split; reflexivity.
Qed.

(** [New] in closed form. *)
Lemma New_eq (cfg : Config) :
  New cfg =
  match Cache_ cfg with
  | Some c => (Some c, None)
  | None =>
    if nonempty (Host (MemcacheClient cfg)) && nonempty (Endpoint (Redis cfg))
    then (None, Some (errors_New "use of multiple cache storage systems is not supported"))
    else (Some (if (1 <? Z.of_nat (List.length (tiers cfg)))
                then Instrument (Prefix cfg ++ "tiered") (NewTiered (tiers cfg))
                else NewTiered (tiers cfg)), None)
  end.
Proof.
  unfold New. destruct (Cache_ cfg); [reflexivity|].
  cbv zeta.
  destruct (fifoStep_remote cfg []) as [-> ->].
  destruct (nonempty (Host (MemcacheClient cfg)) && nonempty (Endpoint (Redis cfg)));
    [reflexivity|].
  unfold finish, tiers.
  pose proof (steps_Prefix cfg) as HP.
  destruct (redisStep (memcacheStep (fifoStep (cfg, [])))) as [cfg' caches].
  simpl in *. rewrite HP.
  destruct (1 <? Z.of_nat (List.length caches)); reflexivity.
Qed.

(** ** The error of New *)

Lemma both_remote (cfg : Config) :
  nonempty (Host (MemcacheClient cfg)) && nonempty (Endpoint (Redis cfg)) = true
  <-> Host (MemcacheClient cfg) <> "" /\ Endpoint (Redis cfg) <> "".
Proof.
  rewrite andb_true_iff, !nonempty_true. reflexivity.
Qed.

(** C1: [New] returns an error exactly when there is no override and both
    the memcached host and the redis endpoint are non-empty; then it
    returns no Cache, and in every other case it returns no error. *)
Theorem New_error_iff (cfg : Config) :
  (snd (New cfg) <> None
   <-> Cache_ cfg = None
       /\ Host (MemcacheClient cfg) <> "" /\ Endpoint (Redis cfg) <> "")
  /\ (snd (New cfg) <> None -> fst (New cfg) = None)
  /\ (~ (Cache_ cfg = None
         /\ Host (MemcacheClient cfg) <> "" /\ Endpoint (Redis cfg) <> "")
      -> snd (New cfg) = None).
Proof.
  rewrite New_eq.
  destruct (Cache_ cfg) as [c|] eqn:Ec.
  - simpl. repeat split; try congruence.
    intros [H _]. discriminate H.
  - destruct (nonempty (Host (MemcacheClient cfg)) && nonempty (Endpoint (Redis cfg))) eqn:B.
    + apply both_remote in B. simpl. repeat split; try congruence; try tauto.
    + assert (N : ~ (Host (MemcacheClient cfg) <> "" /\ Endpoint (Redis cfg) <> "")).
      { intros H. apply both_remote in H. congruence. }
      simpl. repeat split; try congruence; try tauto.
Qed.



(** C7: no override, no local cache and no remote endpoint: [New] returns
    the composite of the empty tier list, and a nil error. *)
Theorem New_no_tiers (cfg : Config) :
  Cache_ cfg = None ->
  EnableFifoCache cfg = false ->
  Host (MemcacheClient cfg) = "" ->
  Endpoint (Redis cfg) = "" ->
  New cfg = (Some (NewTiered []), None).
Proof.
  intros Hc He Hh Hr.
  rewrite New_eq, Hc, tiers_eq. unfold tiersSpec.
  rewrite He, Hh, Hr. reflexivity.
Qed.

Lemma New_no_tiers_witness : New zeroConfig = (Some (NewTiered []), None).
Proof.
  apply (New_no_tiers zeroConfig); reflexivity.
Defined.

(** C9, counterexample: with host "x" and endpoint "y" the error text is
    not the one the spec quotes. *)
Lemma spec_error_text_fails :
  ~ errorTextIs "multiple cache storage systems not supported".
Proof.
  intros H.
  specialize (H (sampleConfig false "x" "y")
                (errors_New "use of multiple cache storage systems is not supported")).
  simpl in H.
  assert (E : "use of multiple cache storage systems is not supported"
              = "multiple cache storage systems not supported").
  { apply H; [discriminate | discriminate | reflexivity]. }
  discriminate E.
Qed.

(** C9, amended: when both remote backends are configured, the error [New]
    returns carries exactly the text
    "use of multiple cache storage systems is not supported"; and without
    an override [New] does return that error. *)
Theorem New_error_message (cfg : Config) :
  Host (MemcacheClient cfg) <> "" ->
  Endpoint (Redis cfg) <> "" ->
  (forall e, snd (New cfg) = Some e ->
             Error e = "use of multiple cache storage systems is not supported")
  /\ (Cache_ cfg = None ->
      New cfg = (None, Some (errors_New "use of multiple cache storage systems is not supported"))).
Proof.
  intros Hh Hr.
  assert (B : nonempty (Host (MemcacheClient cfg)) && nonempty (Endpoint (Redis cfg)) = true).
  { apply both_remote. split; assumption. }
  rewrite New_eq, B.
  destruct (Cache_ cfg); split.
  - simpl. discriminate.
  - discriminate.
  - simpl. intros e He. injection He as <-. reflexivity.
  - reflexivity.
Qed.

Lemma New_error_message_witness :
  (forall e, snd (New (sampleConfig true "x" "y")) = Some e ->
             Error e = "use of multiple cache storage systems is not supported")
  /\ (Cache_ (sampleConfig true "x" "y") = None ->
      New (sampleConfig true "x" "y")
      = (None, Some (errors_New "use of multiple cache storage systems is not supported"))).
Proof.
  apply (New_error_message (sampleConfig true "x" "y")); discriminate.
Defined.

(** ** The outer wrap *)

(** C4: when [New] succeeds without an override, the result is the
    composite wrapped in [Instrument] under the name prefix+"tiered" exactly
    when the tier list has more than one entry; with at most one entry it
    is what [NewTiered] gives, with no outer [Instrument] named
    prefix+"tiered": the single tier itself, or the composite of no tier. *)
Theorem New_outer_wrap (cfg : Config) (c : Cache) :
  Cache_ cfg = None ->
  New cfg = (Some c, None) ->
  (c = Instrument (Prefix cfg ++ "tiered") (NewTiered (tiers cfg))
   <-> (1 < List.length (tiers cfg))%nat)
  /\ (c = NewTiered (tiers cfg) <-> (List.length (tiers cfg) <= 1)%nat)
  /\ ((exists c', c = Instrument (Prefix cfg ++ "tiered") c')
      <-> (1 < List.length (tiers cfg))%nat)
  /\ (forall t, tiers cfg = [t] -> c = t)
  /\ (tiers cfg = [] -> c = Tiered []).
Proof.
  intros Hc HN. rewrite New_eq, Hc in HN.
  destruct (nonempty (Host (MemcacheClient cfg)) && nonempty (Endpoint (Redis cfg))) eqn:B;
    [discriminate|].
  revert HN. rewrite tiers_eq. unfold tiersSpec.
  destruct (EnableFifoCache cfg);
    destruct (nonempty (Host (MemcacheClient cfg)));
    destruct (nonempty (Endpoint (Redis cfg)));
    try discriminate B; simpl; intros HN; injection HN as <-.
  all: repeat split; intros;
    repeat match goal with
           | H : exists _, _ |- _ => destruct H as [? H]
           end;
    try (simpl in *; lia); try reflexivity; try discriminate; eauto.
  all: try match goal with
           | H : [_] = [_] |- _ => injection H as <-; reflexivity
           end.
  all: match goal with
       | H : fifoTier _ = Instrument _ _ |- _ =>
           unfold fifoTier in H; injection H as H _;
           apply append_inj in H; discriminate H
       end.
Qed.

Lemma New_outer_wrap_witness :
  (Instrument "chunkstiered" (NewTiered (tiers (sampleConfig true "" "y")))
   = Instrument (Prefix (sampleConfig true "" "y") ++ "tiered")
       (NewTiered (tiers (sampleConfig true "" "y")))
   <-> (1 < List.length (tiers (sampleConfig true "" "y")))%nat)
  /\ (Instrument "chunkstiered" (NewTiered (tiers (sampleConfig true "" "y")))
      = NewTiered (tiers (sampleConfig true "" "y"))
      <-> (List.length (tiers (sampleConfig true "" "y")) <= 1)%nat)
  /\ ((exists c',
         Instrument "chunkstiered" (NewTiered (tiers (sampleConfig true "" "y")))
         = Instrument (Prefix (sampleConfig true "" "y") ++ "tiered") c')
      <-> (1 < List.length (tiers (sampleConfig true "" "y")))%nat)
  /\ (forall t, tiers (sampleConfig true "" "y") = [t] ->
                Instrument "chunkstiered" (NewTiered (tiers (sampleConfig true "" "y"))) = t)
  /\ (tiers (sampleConfig true "" "y") = [] ->
      Instrument "chunkstiered" (NewTiered (tiers (sampleConfig true "" "y"))) = Tiered []).
Proof.
  apply (New_outer_wrap (sampleConfig true "" "y")); reflexivity.
Defined.

(** The single-tier shortcut, run: only the local cache enabled. *)
Example New_single_tier :
  New (sampleConfig true "" "")
  = (Some (Instrument "chunksfifocache"
             (NewFifoCache "chunksfifocache" (mkFifoCacheConfig 1024 7))),
     None).
Proof. reflexivity. Qed.

(** Two tiers, run: the local cache and redis. *)
Example New_two_tiers :
  New (sampleConfig true "" "y")
  = (Some (Instrument "chunkstiered"
             (Tiered
                [Instrument "chunksfifocache"
                   (NewFifoCache "chunksfifocache" (mkFifoCacheConfig 1024 7));
                 NewBackground "chunksredis" (mkBackgroundConfig 10 10000)
                   (Instrument "chunksredis"
                      (NewRedisCache (mkRedisConfig "y" 5) "chunksredis" None))])),
     None).
Proof. reflexivity. Qed.

(** ** The tiers *)

(** A tier of the list is one of the three closed forms, and its backend is
    the one the configuration switches on. *)
Lemma In_tiers (cfg : Config) (t : Cache) :
  In t (tiers cfg) ->
  (t = fifoTier cfg /\ EnableFifoCache cfg = true)
  \/ (t = memcacheTier cfg /\ Host (MemcacheClient cfg) <> "")
  \/ (t = redisTier cfg /\ Endpoint (Redis cfg) <> "").
Proof.
  rewrite tiers_eq. unfold tiersSpec. rewrite !in_app_iff.
  destruct (EnableFifoCache cfg);
    destruct (nonempty (Host (MemcacheClient cfg))) eqn:Hh;
    destruct (nonempty (Endpoint (Redis cfg))) eqn:Hr;
    try apply nonempty_true in Hh; try apply nonempty_true in Hr;
    simpl; intuition (subst; auto).
Qed.

(** What the first step alone appends is part of the final tier list: the
    tiers built before the validation are tiers of [tiers]. *)
Lemma fifoStep_tiers (cfg : Config) (t : Cache) :
  In t (snd (fifoStep (cfg, []))) -> In t (tiers cfg).
Proof.
  rewrite fifoStep_eq, tiers_eq. unfold tiersSpec.
  destruct (EnableFifoCache cfg); simpl; [|tauto].
  intros [<-|[]]. left. reflexivity.
Qed.

Ltac tier_cases H :=
  destruct H as [[-> H]|[[-> H]|[-> H]]].

(** C5: every tier appended to the tier list is either the local backend
    under [Instrument] alone, or a remote backend under [Instrument] and,
    outside it, [NewBackground]; no tier is [Instrument] around
    [NewBackground]. *)
Theorem tier_chains (cfg : Config) (t : Cache) :
  In t (snd (fifoStep (cfg, []))) \/ In t (tiers cfg) ->
  ((isLocal t = true /\ chain t = [LInstrument; LFifo])
   \/ (isMemcached t = true /\ chain t = [LBackground; LInstrument; LMemcached])
   \/ (isRedis t = true /\ chain t = [LBackground; LInstrument; LRedis]))
  /\ (forall n n' bg c, t <> Instrument n (NewBackground n' bg c))
  /\ (isLocal t = true -> forall n bg c, t <> NewBackground n bg c).
Proof.
  intros H.
  assert (T : In t (tiers cfg)).
  { destruct H as [H|H]; [apply fifoStep_tiers|]; assumption. }
  apply In_tiers in T. tier_cases T; (split; [|split]).
  - left. split; reflexivity.
  - discriminate.
  - discriminate.
  - right. left. split; reflexivity.
  - discriminate.
  - discriminate.
  - right. right. split; reflexivity.
  - discriminate.
  - discriminate.
Qed.

Lemma tier_chains_witness :
  ((isLocal (fifoTier (sampleConfig true "" "y")) = true
    /\ chain (fifoTier (sampleConfig true "" "y")) = [LInstrument; LFifo])
   \/ (isMemcached (fifoTier (sampleConfig true "" "y")) = true
       /\ chain (fifoTier (sampleConfig true "" "y")) = [LBackground; LInstrument; LMemcached])
   \/ (isRedis (fifoTier (sampleConfig true "" "y")) = true
       /\ chain (fifoTier (sampleConfig true "" "y")) = [LBackground; LInstrument; LRedis]))
  /\ (forall n n' bg c,
        fifoTier (sampleConfig true "" "y") <> Instrument n (NewBackground n' bg c))
  /\ (isLocal (fifoTier (sampleConfig true "" "y")) = true ->
      forall n bg c, fifoTier (sampleConfig true "" "y") <> NewBackground n bg c).
Proof.
  apply (tier_chains (sampleConfig true "" "y")).
  right. simpl. left. reflexivity.
Defined.

(** The remote chains, run. *)
Example memcached_chain :
  map chain (tiers (sampleConfig false "x" ""))
  = [[LBackground; LInstrument; LMemcached]].
Proof. reflexivity. Qed.

Example redis_chain :
  map chain (tiers (sampleConfig true "" "y"))
  = [[LInstrument; LFifo]; [LBackground; LInstrument; LRedis]].
Proof. reflexivity. Qed.

(** C3: the validity a backend is constructed with is the backend's own
    configured value when that is non-zero and [DefaultValidity] when it is
    zero; a non-zero own value is never replaced, and with a zero
    [DefaultValidity] the own value is kept. *)
Theorem validity_resolution (cfg : Config) (t : Cache) :
  In t (snd (fifoStep (cfg, []))) \/ In t (tiers cfg) ->
  exists own v,
    configured cfg t = Some own
    /\ validity t = Some v
    /\ v = resolve own (DefaultValidity cfg)
    /\ (own <> 0 -> v = own)
    /\ (own = 0 -> v = DefaultValidity cfg)
    /\ (DefaultValidity cfg = 0 -> v = own)
    /\ (v <> own -> own = 0 /\ v = DefaultValidity cfg).
Proof.
  intros H.
  assert (T : In t (tiers cfg)).
  { destruct H as [H|H]; [apply fifoStep_tiers|]; assumption. }
  assert (R : forall own,
             resolve own (DefaultValidity cfg) = resolve own (DefaultValidity cfg)
             /\ (own <> 0 -> resolve own (DefaultValidity cfg) = own)
             /\ (own = 0 -> resolve own (DefaultValidity cfg) = DefaultValidity cfg)
             /\ (DefaultValidity cfg = 0 -> resolve own (DefaultValidity cfg) = own)
             /\ (resolve own (DefaultValidity cfg) <> own ->
                 own = 0 /\ resolve own (DefaultValidity cfg) = DefaultValidity cfg)).
  { intros own. split; [reflexivity|]. split; [apply resolve_nonzero|].
    split; [apply resolve_zero|]. split.
    - intros ->. apply resolve_no_default.
    - unfold resolve. destruct (Z.eqb_spec own 0); [auto | congruence]. }
  apply In_tiers in T. tier_cases T.
  - exists (Validity (Fifocache cfg)), (resolve (Validity (Fifocache cfg)) (DefaultValidity cfg)).
    split; [reflexivity|]. split; [reflexivity|]. apply R.
  - exists (Memcache_Expiration (Memcache cfg)),
      (resolve (Memcache_Expiration (Memcache cfg)) (DefaultValidity cfg)).
    split; [reflexivity|]. split; [reflexivity|]. apply R.
  - exists (Redis_Expiration (Redis cfg)),
      (resolve (Redis_Expiration (Redis cfg)) (DefaultValidity cfg)).
    split; [reflexivity|]. split; [reflexivity|]. apply R.
Qed.

Lemma validity_resolution_witness :
  exists own v,
    configured (sampleConfig true "" "y") (fifoTier (sampleConfig true "" "y")) = Some own
    /\ validity (fifoTier (sampleConfig true "" "y")) = Some v
    /\ v = resolve own (DefaultValidity (sampleConfig true "" "y"))
    /\ (own <> 0 -> v = own)
    /\ (own = 0 -> v = DefaultValidity (sampleConfig true "" "y"))
    /\ (DefaultValidity (sampleConfig true "" "y") = 0 -> v = own)
    /\ (v <> own -> own = 0 /\ v = DefaultValidity (sampleConfig true "" "y")).
Proof.
  apply (validity_resolution (sampleConfig true "" "y")).
  left. simpl. left. reflexivity.
Defined.

(** The resolution, run: the local cache has no validity of its own and
    takes the default 7, redis keeps its own 5. *)
Example validities_run :
  map validity (tiers (sampleConfig true "" "y")) = [Some 7; Some 5].
Proof. reflexivity. Qed.

(** A zero default leaves a zero own value in place. *)
Example validity_zero_default :
  map validity (tiers (mkConfig true 0 (mkBackgroundConfig 1 1) (mkMemcachedConfig 0)
                         (mkMemcachedClientConfig "x" 0) (mkRedisConfig "" 0)
                         (mkFifoCacheConfig 1 0) "" None))
  = [Some 0; Some 0].
Proof. reflexivity. Qed.

(** ** Order of the tiers *)

(** Without a configuration error the two remote switches are not both on. *)
Lemma no_error_one_remote (cfg : Config) :
  Cache_ cfg = None ->
  snd (New cfg) = None ->
  nonempty (Host (MemcacheClient cfg)) && nonempty (Endpoint (Redis cfg)) = false.
Proof.
  intros Hc HN. rewrite New_eq, Hc in HN.
  destruct (nonempty (Host (MemcacheClient cfg)) && nonempty (Endpoint (Redis cfg)));
    [discriminate HN | reflexivity].
Qed.

(** C6: when [New] returns no error, the tier list is the local tier (when
    the local cache is enabled) followed by at most one remote tier: a local
    tier stands before any remote tier, and a memcached tier and a redis
    tier never occur together. *)
Theorem tier_order (cfg : Config) :
  Cache_ cfg = None ->
  snd (New cfg) = None ->
  (exists local remote,
     tiers cfg = (local ++ remote)%list
     /\ forallb isLocal local = true
     /\ forallb isRemote remote = true
     /\ List.length local = (if EnableFifoCache cfg then 1%nat else 0%nat)
     /\ (List.length remote <= 1)%nat)
  /\ (forall i j a b,
        nth_error (tiers cfg) i = Some a ->
        nth_error (tiers cfg) j = Some b ->
        isLocal a = true -> isRemote b = true -> (i < j)%nat)
  /\ ~ (existsb isMemcached (tiers cfg) = true /\ existsb isRedis (tiers cfg) = true).
Proof.
  intros Hc HN. pose proof (no_error_one_remote cfg Hc HN) as B.
  rewrite tiers_eq. unfold tiersSpec.
  destruct (EnableFifoCache cfg);
    destruct (nonempty (Host (MemcacheClient cfg)));
    destruct (nonempty (Endpoint (Redis cfg)));
    try discriminate B; simpl.
  all: split; [|split].
  all: try (intros [E1 E2]; discriminate).
  all: try (intros i j a b Hi Hj La Rb;
            destruct i as [|[|i]]; simpl in Hi; try discriminate Hi;
            try (destruct i; discriminate Hi);
            injection Hi as <-;
            destruct j as [|[|j]]; simpl in Hj; try discriminate Hj;
            try (destruct j; discriminate Hj);
            injection Hj as <-;
            try discriminate La; try discriminate Rb; lia).
  - exists [fifoTier cfg], [memcacheTier cfg]. repeat split. simpl. lia.
  - exists [fifoTier cfg], [redisTier cfg]. repeat split. simpl. lia.
  - exists [fifoTier cfg], []. repeat split. simpl. lia.
  - exists [], [memcacheTier cfg]. repeat split. simpl. lia.
  - exists [], [redisTier cfg]. repeat split. simpl. lia.
  - exists [], []. repeat split. simpl. lia.
Qed.

Lemma tier_order_witness :
  (exists local remote,
     tiers (sampleConfig true "x" "") = (local ++ remote)%list
     /\ forallb isLocal local = true
     /\ forallb isRemote remote = true
     /\ List.length local
        = (if EnableFifoCache (sampleConfig true "x" "") then 1%nat else 0%nat)
     /\ (List.length remote <= 1)%nat)
  /\ (forall i j a b,
        nth_error (tiers (sampleConfig true "x" "")) i = Some a ->
        nth_error (tiers (sampleConfig true "x" "")) j = Some b ->
        isLocal a = true -> isRemote b = true -> (i < j)%nat)
  /\ ~ (existsb isMemcached (tiers (sampleConfig true "x" "")) = true
        /\ existsb isRedis (tiers (sampleConfig true "x" "")) = true).
Proof.
  apply (tier_order (sampleConfig true "x" "")); reflexivity.
Defined.

(** The order, run: local first, then memcached. *)
Example tier_order_run :
  map (fun t => (isLocal t, isRemote t)) (tiers (sampleConfig true "x" ""))
  = [(true, false); (false, true)].
Proof. reflexivity. Qed.

(** ** Names *)

Lemma derivedNames_NoDup (p : string) : NoDup (derivedNames p).
Proof.
  unfold derivedNames, kinds. simpl.
  repeat (apply NoDup_cons; [simpl; intros H|]); [..|apply NoDup_nil];
    repeat (destruct H as [H|H]; [apply append_inj in H; discriminate H|]);
    exact H.
Qed.

(** The composite adds no layer of its own, and the single-tier shortcut
    adds none either. *)
Lemma layers_NewTiered (caches : list Cache) :
  layers (NewTiered caches) = flat_map layers caches.
Proof.
  destruct caches as [|c [|c' caches]]; simpl; try reflexivity.
  rewrite app_nil_r. reflexivity.
Qed.

Lemma layers_tiers (cfg : Config) :
  flat_map layers (tiers cfg)
  = (fifoLayers cfg ++ memcacheLayers cfg ++ redisLayers cfg)%list.
Proof.
  rewrite tiers_eq.
  unfold tiersSpec, fifoLayers, memcacheLayers, redisLayers.
  destruct (EnableFifoCache cfg);
    destruct (nonempty (Host (MemcacheClient cfg)));
    destruct (nonempty (Endpoint (Redis cfg))); reflexivity.
Qed.

(** C8, counterexample: with the prefix "chunks" and memcached configured,
    the memcached backend is constructed under the name "chunks", which is
    none of the derived names. *)
Lemma namingScheme_fails : ~ namingScheme.
Proof.
  intros H.
  destruct (H (sampleConfig false "x" "") _ eq_refl eq_refl) as [N _].
  specialize (N "chunks"). simpl in N.
  assert (I : "chunksfifocache" = "chunks" \/ "chunksmemcache" = "chunks"
              \/ "chunksredis" = "chunks" \/ "chunkstiered" = "chunks" \/ False).
  { apply N. right. right. left. reflexivity. }
  intuition discriminate.
Qed.

(** C8, amended: the layers of an assembled cache are, in order, the outer
    [Instrument] named prefix+"tiered" (with more than one tier), the local
    [Instrument] and backend named prefix+"fifocache", the memcached
    [NewBackground] and [Instrument] named prefix+"memcache" around a
    backend given the bare prefix, and the redis [NewBackground],
    [Instrument] and backend named prefix+"redis"; every name but that of
    the memcached backend is a derived name, and the derived names are
    pairwise distinct. *)
Theorem New_layer_names (cfg : Config) (c : Cache) :
  Cache_ cfg = None ->
  New cfg = (Some c, None) ->
  layers c
  = (outerLayers cfg ++ fifoLayers cfg ++ memcacheLayers cfg ++ redisLayers cfg)%list
  /\ (forall l n, In (l, n) (layers c) ->
        (l <> LMemcached /\ In n (derivedNames (Prefix cfg)))
        \/ (l = LMemcached /\ n = Prefix cfg))
  /\ NoDup (derivedNames (Prefix cfg)).
Proof.
  intros Hc HN.
  assert (E : layers c
              = (outerLayers cfg ++ fifoLayers cfg ++ memcacheLayers cfg
                 ++ redisLayers cfg)%list).
  { rewrite New_eq, Hc in HN.
    destruct (nonempty (Host (MemcacheClient cfg)) && nonempty (Endpoint (Redis cfg)));
      [discriminate HN|].
    injection HN as <-. unfold outerLayers.
    destruct (1 <? Z.of_nat (List.length (tiers cfg))); cbn [layers app];
      rewrite layers_NewTiered, layers_tiers; reflexivity. }
  split; [exact E|]. split; [|apply derivedNames_NoDup].
  intros l n. rewrite E, !in_app_iff.
  unfold outerLayers, fifoLayers, memcacheLayers, redisLayers, derivedNames, kinds.
  destruct (1 <? Z.of_nat (List.length (tiers cfg)));
    destruct (EnableFifoCache cfg);
    destruct (nonempty (Host (MemcacheClient cfg)));
    destruct (nonempty (Endpoint (Redis cfg)));
    simpl;
    intuition (match goal with
               | H : (_, _) = (_, _) |- _ => injection H as <- <-
               end;
               first [ right; split; reflexivity
                     | left; split; [discriminate | simpl; tauto] ]).
Qed.

Lemma New_layer_names_witness :
  layers (NewTiered [memcacheTier (sampleConfig false "x" "")])
  = (outerLayers (sampleConfig false "x" "") ++ fifoLayers (sampleConfig false "x" "")
     ++ memcacheLayers (sampleConfig false "x" "")
     ++ redisLayers (sampleConfig false "x" ""))%list
  /\ (forall l n, In (l, n) (layers (NewTiered [memcacheTier (sampleConfig false "x" "")])) ->
        (l <> LMemcached /\ In n (derivedNames (Prefix (sampleConfig false "x" ""))))
        \/ (l = LMemcached /\ n = Prefix (sampleConfig false "x" "")))
  /\ NoDup (derivedNames (Prefix (sampleConfig false "x" ""))).
Proof.
  apply (New_layer_names (sampleConfig false "x" "")); reflexivity.
Defined.

(** The names, run: all three kinds of layer around memcached. *)
Example memcached_layers_run :
  layers (memcacheTier (sampleConfig false "x" ""))
  = [(LBackground, "chunksmemcache"); (LInstrument, "chunksmemcache");
     (LMemcached, "chunks")].
Proof. reflexivity. Qed.

(** ** Flag registration *)

Lemma andThen_Some {A B : Type} (m : option A) (k : A -> option B) (b : B) :
  andThen m k = Some b <-> exists a, m = Some a /\ k a = Some b.
Proof.
  destruct m as [a|]; simpl; split.
  - intros H. exists a. split; [reflexivity | assumption].
  - intros (a' & E & H). injection E as <-. assumption.
  - discriminate.
  - intros (a' & E & _). discriminate E.
Qed.

(** C10: whenever the registration returns, which it does exactly when
    none of the calls it makes panics, the [Prefix] of the configuration is
    the prefix argument, whatever it was before and whatever the prefix,
    the description and the flag set are. *)
Theorem RegisterFlagsWithPrefix_Prefix `{Flags} (prefix description : string)
    (f : FlagSet) (cfg : Config) :
  (forall cfg' f',
     RegisterFlagsWithPrefix prefix description f cfg = Some (cfg', f') ->
     Prefix cfg' = prefix)
  /\ (calleesReturn prefix description f cfg
      <-> exists cfg' f',
            RegisterFlagsWithPrefix prefix description f cfg = Some (cfg', f'))
  /\ (forall old,
        option_map (fun r => Prefix (fst r))
          (RegisterFlagsWithPrefix prefix description f (set_Prefix old cfg))
        = option_map (fun r => Prefix (fst r))
            (RegisterFlagsWithPrefix prefix description f cfg)).
Proof.
  split; [|split].
  - intros cfg' f'. unfold RegisterFlagsWithPrefix.
    intros R.
    repeat (apply andThen_Some in R; destruct R as ([? ?] & _ & R)).
    repeat (apply andThen_Some in R; destruct R as (? & _ & R)).
    injection R as <- _. reflexivity.
  - unfold calleesReturn, RegisterFlagsWithPrefix. split.
    + intros (bg & f1 & mc & f2 & mcc & f3 & rd & f4 & ff & f5 & f6 & f7
              & E1 & E2 & E3 & E4 & E5 & E6 & E7).
      rewrite E1. simpl. rewrite E2. simpl. rewrite E3. simpl.
      rewrite E4. simpl. rewrite E5. simpl. rewrite E6. simpl.
      rewrite E7. simpl. eauto.
    + intros (cfg' & f' & R).
      apply andThen_Some in R. destruct R as ([bg f1] & E1 & R).
      apply andThen_Some in R. destruct R as ([mc f2] & E2 & R).
      apply andThen_Some in R. destruct R as ([mcc f3] & E3 & R).
      apply andThen_Some in R. destruct R as ([rd f4] & E4 & R).
      apply andThen_Some in R. destruct R as ([ff f5] & E5 & R).
      apply andThen_Some in R. destruct R as (f6 & E6 & R).
      apply andThen_Some in R. destruct R as (f7 & E7 & R).
      simpl in *.
      exists bg, f1, mc, f2, mcc, f3, rd, f4, ff, f5, f6, f7.
      repeat split; assumption.
  - intros old. unfold RegisterFlagsWithPrefix. simpl.
    destruct (Background_RegisterFlagsWithPrefix prefix description f (Background cfg))
      as [[bg f1]|]; [simpl|reflexivity].
    destruct (Memcache_RegisterFlagsWithPrefix prefix description f1 (Memcache cfg))
      as [[mc f2]|]; [simpl|reflexivity].
    destruct (MemcacheClient_RegisterFlagsWithPrefix prefix description f2 (MemcacheClient cfg))
      as [[mcc f3]|]; [simpl|reflexivity].
    destruct (Redis_RegisterFlagsWithPrefix prefix description f3 (Redis cfg))
      as [[rd f4]|]; [simpl|reflexivity].
    destruct (Fifocache_RegisterFlagsWithPrefix prefix description f4 (Fifocache cfg))
      as [[ff f5]|]; [simpl|reflexivity].
    destruct (BoolVar f5 (prefix ++ "cache.enable-fifocache") false
                (description ++ "Enable in-memory cache."))
      as [f6|]; [simpl|reflexivity].
    destruct (DurationVar f6 (prefix ++ "default-validity") 0
                (description ++ "The default validity of entries for caches unless overridden."))
      as [f7|]; reflexivity.
Qed.

(** The registration, run on the list instance: a configuration whose
    prefix was "chunks" comes back with the prefix "store.". *)
Example RegisterFlagsWithPrefix_run :
  @RegisterFlagsWithPrefix listFlags "store." "" [] (sampleConfig true "x" "")
  = Some (mkConfig false 0 (mkBackgroundConfig 10 10000) (mkMemcachedConfig 0)
            (mkMemcachedClientConfig "x" 100) (mkRedisConfig "" 5)
            (mkFifoCacheConfig 1024 0) "store." None,
          ["store.default-validity"; "store.cache.enable-fifocache"]).
Proof. reflexivity. Qed.

(** A flag set that already defines a name the registration defines makes
    the registration panic. *)
Example RegisterFlagsWithPrefix_redefined :
  @RegisterFlagsWithPrefix listFlags "store." "" ["store.default-validity"]
    (sampleConfig true "x" "")
  = None.
Proof. reflexivity. Qed.

Lemma RegisterFlagsWithPrefix_Prefix_witness :
  (forall cfg' f',
     @RegisterFlagsWithPrefix listFlags "store." "" [] (sampleConfig true "x" "")
     = Some (cfg', f') ->
     Prefix cfg' = "store.")
  /\ (@calleesReturn listFlags "store." "" [] (sampleConfig true "x" "")
      <-> exists cfg' f',
            @RegisterFlagsWithPrefix listFlags "store." "" [] (sampleConfig true "x" "")
            = Some (cfg', f'))
  /\ (forall old,
        option_map (fun r => Prefix (fst r))
          (@RegisterFlagsWithPrefix listFlags "store." "" []
             (set_Prefix old (sampleConfig true "x" "")))
        = option_map (fun r => Prefix (fst r))
            (@RegisterFlagsWithPrefix listFlags "store." "" [] (sampleConfig true "x" ""))).
Proof.
  exact (@RegisterFlagsWithPrefix_Prefix listFlags "store." "" [] (sampleConfig true "x" "")).
Defined.

(** ** Further properties of New *)

(** X1: [New] returns exactly one of a Cache and an error: never both nil,
    never both set. *)
Theorem New_cache_xor_error (cfg : Config) :
  (fst (New cfg) = None <-> snd (New cfg) <> None)
  /\ (fst (New cfg) <> None <-> snd (New cfg) = None).
Proof.
  rewrite New_eq.
  destruct (Cache_ cfg) as [c|]; simpl.
  - repeat split; congruence.
  - destruct (nonempty (Host (MemcacheClient cfg)) && nonempty (Endpoint (Redis cfg)));
      simpl; repeat split; congruence.
Qed.

(** The tier list has one tier per backend switched on. *)
Lemma tiers_length (cfg : Config) : List.length (tiers cfg) = enabledCount cfg.
Proof.
  rewrite tiers_eq. unfold tiersSpec, enabledCount.
  destruct (EnableFifoCache cfg);
    destruct (nonempty (Host (MemcacheClient cfg)));
    destruct (nonempty (Endpoint (Redis cfg))); reflexivity.
Qed.

(** X2: read off the configuration: a successful [New] without override
    builds at most two tiers, and adds the outer [Instrument] exactly when
    the local cache is enabled and a remote endpoint is set. *)
Theorem New_wrap_by_config (cfg : Config) (c : Cache) :
  Cache_ cfg = None ->
  New cfg = (Some c, None) ->
  (List.length (tiers cfg) <= 2)%nat
  /\ ((exists c', c = Instrument (Prefix cfg ++ "tiered") c')
      <-> EnableFifoCache cfg = true
          /\ (Host (MemcacheClient cfg) <> "" \/ Endpoint (Redis cfg) <> "")).
Proof.
  intros Hc HN. rewrite New_eq, Hc in HN.
  rewrite <- !nonempty_true.
  revert HN. rewrite tiers_eq. unfold tiersSpec.
  destruct (EnableFifoCache cfg);
    destruct (nonempty (Host (MemcacheClient cfg)));
    destruct (nonempty (Endpoint (Redis cfg)));
    simpl; intros HN; try discriminate HN; injection HN as <-.
  all: split; [lia|].
  all: split;
    [ intros (c' & E); try discriminate E; auto
    | intros (E1 & [E2|E2]); try discriminate; eauto ].
  unfold fifoTier in E. injection E as E _.
  apply append_inj in E. discriminate E.
Qed.

Lemma New_wrap_by_config_witness :
  (List.length (tiers (sampleConfig true "x" "")) <= 2)%nat
  /\ ((exists c',
         Instrument "chunkstiered" (NewTiered (tiers (sampleConfig true "x" "")))
         = Instrument (Prefix (sampleConfig true "x" "") ++ "tiered") c')
      <-> EnableFifoCache (sampleConfig true "x" "") = true
          /\ (Host (MemcacheClient (sampleConfig true "x" "")) <> ""
              \/ Endpoint (Redis (sampleConfig true "x" "")) <> "")).
Proof.
  apply (New_wrap_by_config (sampleConfig true "x" "")); reflexivity.
Defined.

Ltac by_switches cfg :=
  rewrite !New_eq, !tiers_eq; unfold tiersSpec, fifoTier, memcacheTier, redisTier;
  destruct cfg as [e dv bg0 [mx] [h mt] [ep rx] [sz fv] p o]; simpl in *.

(** X3: the configuration of a backend that is switched off is ignored:
    changing it does not change what [New] returns. *)
Theorem New_ignores_disabled (cfg : Config) :
  (EnableFifoCache cfg = false ->
   forall fc, New (set_Fifocache fc cfg) = New cfg)
  /\ (Host (MemcacheClient cfg) = "" ->
      forall mc t, New (set_Memcache mc (set_MemcacheClient (mkMemcachedClientConfig "" t) cfg))
                   = New cfg)
  /\ (Endpoint (Redis cfg) = "" ->
      forall v, New (set_Redis (mkRedisConfig "" v) cfg) = New cfg)
  /\ (Host (MemcacheClient cfg) = "" -> Endpoint (Redis cfg) = "" ->
      forall bg, New (set_Background bg cfg) = New cfg).
Proof.
  repeat split.
  - intros E fc. by_switches cfg. subst e. reflexivity.
  - intros E mc t. by_switches cfg. subst h. reflexivity.
  - intros E v. by_switches cfg. subst ep. reflexivity.
  - intros E1 E2 b. by_switches cfg. subst h ep. reflexivity.
Qed.

(** X4: [DefaultValidity] plays no part when every backend that is
    switched on has a non-zero validity of its own. *)
Theorem New_default_unused (cfg : Config) (d : Duration) :
  (EnableFifoCache cfg = true -> Validity (Fifocache cfg) <> 0) ->
  (Host (MemcacheClient cfg) <> "" -> Memcache_Expiration (Memcache cfg) <> 0) ->
  (Endpoint (Redis cfg) <> "" -> Redis_Expiration (Redis cfg) <> 0) ->
  New (set_DefaultValidity d cfg) = New cfg.
Proof.
  intros Hf Hm Hr.
  rewrite <- nonempty_true in Hm, Hr.
  by_switches cfg.
  destruct o as [c|]; [reflexivity|].
  destruct e; destruct (nonempty h); destruct (nonempty ep); simpl; try reflexivity;
    repeat match goal with
           | H : ?x = ?x -> _ |- _ => specialize (H eq_refl)
           end;
    repeat match goal with
           | H : ?v <> 0 |- _ =>
               rewrite !(resolve_nonzero v) by exact H; clear H
           end;
    reflexivity.
Qed.

Lemma New_default_unused_witness :
  New (set_DefaultValidity 99
         (mkConfig true 7 (mkBackgroundConfig 10 10000) (mkMemcachedConfig 3)
            (mkMemcachedClientConfig "x" 100) (mkRedisConfig "" 0)
            (mkFifoCacheConfig 1024 2) "chunks" None))
  = New (mkConfig true 7 (mkBackgroundConfig 10 10000) (mkMemcachedConfig 3)
           (mkMemcachedClientConfig "x" 100) (mkRedisConfig "" 0)
           (mkFifoCacheConfig 1024 2) "chunks" None).
Proof.
  apply (New_default_unused
           (mkConfig true 7 (mkBackgroundConfig 10 10000) (mkMemcachedConfig 3)
              (mkMemcachedClientConfig "x" 100) (mkRedisConfig "" 0)
              (mkFifoCacheConfig 1024 2) "chunks" None) 99); simpl.
  - intros _. discriminate.
  - intros _. discriminate.
  - intros H. exfalso. apply H. reflexivity.
Defined.

Lemma resolve_idem (own dflt : Duration) :
  resolve (resolve own dflt) dflt = resolve own dflt.
Proof.
  unfold resolve. destruct (Z.eqb_spec own 0) as [->|Ho].
  - destruct (Z.eqb_spec dflt 0); reflexivity.
  - apply Z.eqb_neq in Ho. rewrite Ho. reflexivity.
Qed.

(** X5: leaving a validity at zero and writing the default into it are the
    same to [New]: the configuration with all three validities resolved
    gives the same result. *)
Theorem New_resolveAll (cfg : Config) : New (resolveAll cfg) = New cfg.
Proof.
  unfold resolveAll. by_switches cfg.
  rewrite !resolve_idem. reflexivity.
Qed.

(** The layers of what a successful [New] returns. *)
Lemma layers_New (cfg : Config) (c : Cache) :
  Cache_ cfg = None ->
  New cfg = (Some c, None) ->
  nonempty (Host (MemcacheClient cfg)) && nonempty (Endpoint (Redis cfg)) = false
  /\ layers c
     = (outerLayers cfg ++ fifoLayers cfg ++ memcacheLayers cfg ++ redisLayers cfg)%list.
Proof.
  intros Hc HN. rewrite New_eq, Hc in HN.
  destruct (nonempty (Host (MemcacheClient cfg)) && nonempty (Endpoint (Redis cfg)));
    [discriminate HN|].
  split; [reflexivity|].
  injection HN as <-. unfold outerLayers.
  destruct (1 <? Z.of_nat (List.length (tiers cfg))); cbn [layers app];
    rewrite layers_NewTiered, layers_tiers; reflexivity.
Qed.

Ltac layer_cases cfg c Hc HN :=
  destruct (layers_New cfg c Hc HN) as [B E];
  unfold namesOf; rewrite E;
  unfold outerLayers, fifoLayers, memcacheLayers, redisLayers;
  rewrite tiers_eq; unfold tiersSpec;
  destruct (EnableFifoCache cfg);
  destruct (nonempty (Host (MemcacheClient cfg)));
  destruct (nonempty (Endpoint (Redis cfg)));
  try discriminate B; simpl.



Ltac distinct_names :=
  repeat (apply NoDup_cons;
          [ simpl;
            let H := fresh "H" in
            intros H;
            repeat (destruct H as [H|H]; [apply append_inj in H; discriminate H|]);
            exact H
          | ]);
  apply NoDup_nil.

(** X7: within one assembled cache no two [Instrument] layers carry the
    same name, and no two [NewBackground] layers do. *)
Theorem New_decorator_names_distinct (cfg : Config) (c : Cache) :
  Cache_ cfg = None ->
  New cfg = (Some c, None) ->
  NoDup (namesOf LInstrument c) /\ NoDup (namesOf LBackground c).
Proof.
  intros Hc HN. layer_cases cfg c Hc HN; split; distinct_names.
Qed.

Lemma New_decorator_names_distinct_witness :
  NoDup (namesOf LInstrument
           (Instrument "chunkstiered" (NewTiered (tiers (sampleConfig true "" "y")))))
  /\ NoDup (namesOf LBackground
              (Instrument "chunkstiered" (NewTiered (tiers (sampleConfig true "" "y"))))).
Proof.
  apply (New_decorator_names_distinct (sampleConfig true "" "y")); reflexivity.
Defined.

(** The decorator names, run. *)
Example decorator_names_run :
  namesOf LInstrument
    (Instrument "chunkstiered" (NewTiered (tiers (sampleConfig true "" "y"))))
  = ["chunkstiered"; "chunksfifocache"; "chunksredis"].
Proof. reflexivity. Qed.

(** The traced steps keep the locals of the plain ones. *)
Lemma fifoStepT_locals (st : Locals) (calls : list Call) :
  fst (fifoStepT (st, calls)) = fifoStep st.
Proof.
  destruct st as [cfg caches]. unfold fifoStepT, fifoStep.
  destruct (EnableFifoCache cfg); reflexivity.
Qed.

Lemma memcacheStepT_locals (st : Locals) (calls : list Call) :
  fst (memcacheStepT (st, calls)) = memcacheStep st.
Proof.
  destruct st as [cfg caches]. unfold memcacheStepT, memcacheStep.
  destruct (nonempty (Host (MemcacheClient cfg))); reflexivity.
Qed.

Lemma redisStepT_locals (st : Locals) (calls : list Call) :
  fst (redisStepT (st, calls)) = redisStep st.
Proof.
  destruct st as [cfg caches]. unfold redisStepT, redisStep.
  destruct (nonempty (Endpoint (Redis cfg))); reflexivity.
Qed.

Lemma finishT_result (st : Locals) (calls : list Call) :
  fst (finishT (st, calls)) = finish st.
Proof.
  destruct st as [cfg caches]. unfold finishT, finish.
  destruct (1 <? Z.of_nat (List.length caches)); reflexivity.
Qed.

(** [NewTraced] returns what [New] returns. *)
Lemma NewTraced_New (cfg : Config) : fst (NewTraced cfg) = New cfg.
Proof.
  unfold NewTraced, New. destruct (Cache_ cfg); [reflexivity|]. cbv zeta.
  set (T1 := fifoStepT (cfg, [], [])).
  assert (E1 : fst T1 = fifoStep (cfg, [])) by apply fifoStepT_locals.
  clearbody T1. destruct T1 as [st1 calls1]. cbn [fst snd] in *. subst st1.
  destruct (nonempty (Host (MemcacheClient (fst (fifoStep (cfg, [])))))
            && nonempty (Endpoint (Redis (fst (fifoStep (cfg, []))))));
    [reflexivity|].
  set (T2 := memcacheStepT (fifoStep (cfg, []), calls1)).
  assert (E2 : fst T2 = memcacheStep (fifoStep (cfg, []))) by apply memcacheStepT_locals.
  clearbody T2. destruct T2 as [st2 calls2]. cbn [fst snd] in *. subst st2.
  set (T3 := redisStepT (memcacheStep (fifoStep (cfg, [])), calls2)).
  assert (E3 : fst T3 = redisStep (memcacheStep (fifoStep (cfg, []))))
    by apply redisStepT_locals.
  clearbody T3. destruct T3 as [st3 calls3]. cbn [fst snd] in *. subst st3.
  apply finishT_result.
Qed.

(** X8: the validation of the remote selection runs after the local tier
    has been built: with the local cache enabled and both remote endpoints
    set, [New] has called [NewFifoCache] and [Instrument] for the local
    tier, and no other constructor, when it returns the error; what it
    built is not returned. *)
Theorem New_error_after_local (cfg : Config) :
  Cache_ cfg = None ->
  EnableFifoCache cfg = true ->
  Host (MemcacheClient cfg) <> "" ->
  Endpoint (Redis cfg) <> "" ->
  NewTraced cfg
  = ((None, Some (errors_New "use of multiple cache storage systems is not supported")),
     [Call_NewFifoCache (Prefix cfg ++ "fifocache")
        (mkFifoCacheConfig (Size (Fifocache cfg))
           (resolve (Validity (Fifocache cfg)) (DefaultValidity cfg)));
      Call_Instrument (Prefix cfg ++ "fifocache") (backend (fifoTier cfg))])
  /\ New cfg = fst (NewTraced cfg).
Proof.
  intros Hc He Hh Hr. split; [|symmetry; apply NewTraced_New].
  apply nonempty_true in Hh. apply nonempty_true in Hr.
  destruct cfg as [e dv bg0 [mx] [h mt] [ep rx] [sz fv] p o]; simpl in *.
  subst e o. unfold NewTraced, fifoStepT, resolve. simpl.
  destruct (Z.eqb_spec fv 0) as [->|Hf]; destruct (Z.eqb_spec dv 0) as [->|Hd];
    simpl; rewrite Hh, Hr; reflexivity.
Qed.

Lemma New_error_after_local_witness :
  NewTraced (sampleConfig true "x" "y")
  = ((None, Some (errors_New "use of multiple cache storage systems is not supported")),
     [Call_NewFifoCache (Prefix (sampleConfig true "x" "y") ++ "fifocache")
        (mkFifoCacheConfig (Size (Fifocache (sampleConfig true "x" "y")))
           (resolve (Validity (Fifocache (sampleConfig true "x" "y")))
              (DefaultValidity (sampleConfig true "x" "y"))));
      Call_Instrument (Prefix (sampleConfig true "x" "y") ++ "fifocache")
        (backend (fifoTier (sampleConfig true "x" "y")))])
  /\ New (sampleConfig true "x" "y") = fst (NewTraced (sampleConfig true "x" "y")).
Proof.
  apply (New_error_after_local (sampleConfig true "x" "y"));
    [reflexivity | reflexivity | discriminate | discriminate].
Defined.

(** The calls, run: two tiers, seven calls in source order. *)
Example calls_run :
  snd (NewTraced (sampleConfig true "" "y"))
  = [Call_NewFifoCache "chunksfifocache" (mkFifoCacheConfig 1024 7);
     Call_Instrument "chunksfifocache"
       (NewFifoCache "chunksfifocache" (mkFifoCacheConfig 1024 7));
     Call_NewRedisCache (mkRedisConfig "y" 5) "chunksredis" None;
     Call_Instrument "chunksredis" (NewRedisCache (mkRedisConfig "y" 5) "chunksredis" None);
     Call_NewBackground "chunksredis" (mkBackgroundConfig 10 10000)
       (Instrument "chunksredis" (NewRedisCache (mkRedisConfig "y" 5) "chunksredis" None));
     Call_NewTiered (tiers (sampleConfig true "" "y"));
     Call_Instrument "chunkstiered" (NewTiered (tiers (sampleConfig true "" "y")))].
Proof. reflexivity. Qed.

(** With an override no constructor is called. *)
Example calls_override :
  NewTraced (mkConfig true 7 (mkBackgroundConfig 10 10000) (mkMemcachedConfig 0)
               (mkMemcachedClientConfig "x" 100) (mkRedisConfig "y" 5)
               (mkFifoCacheConfig 1024 0) "chunks" (Some (Injected 0)))
  = ((Some (Injected 0), None), []).
Proof. reflexivity. Qed.

(** ** Further properties of RegisterFlagsWithPrefix *)

(** What a returning registration leaves in the configuration. *)
Lemma RegisterFlagsWithPrefix_result `{Flags} (prefix description : string)
    (f : FlagSet) (cfg cfg' : Config) (f' : FlagSet) :
  RegisterFlagsWithPrefix prefix description f cfg = Some (cfg', f') ->
  exists bg f1 mc f2 mcc f3 rd f4 ff f5,
    Background_RegisterFlagsWithPrefix prefix description f (Background cfg) = Some (bg, f1)
    /\ Memcache_RegisterFlagsWithPrefix prefix description f1 (Memcache cfg) = Some (mc, f2)
    /\ MemcacheClient_RegisterFlagsWithPrefix prefix description f2 (MemcacheClient cfg)
       = Some (mcc, f3)
    /\ Redis_RegisterFlagsWithPrefix prefix description f3 (Redis cfg) = Some (rd, f4)
    /\ Fifocache_RegisterFlagsWithPrefix prefix description f4 (Fifocache cfg) = Some (ff, f5)
    /\ cfg' = mkConfig false 0 bg mc mcc rd ff prefix (Cache_ cfg).
Proof.
  unfold RegisterFlagsWithPrefix. intros R.
  apply andThen_Some in R. destruct R as ([bg f1] & E1 & R).
  apply andThen_Some in R. destruct R as ([mc f2] & E2 & R).
  apply andThen_Some in R. destruct R as ([mcc f3] & E3 & R).
  apply andThen_Some in R. destruct R as ([rd f4] & E4 & R).
  apply andThen_Some in R. destruct R as ([ff f5] & E5 & R).
  apply andThen_Some in R. destruct R as (f6 & E6 & R).
  apply andThen_Some in R. destruct R as (f7 & E7 & R).
  simpl in *. injection R as <- _.
  exists bg, f1, mc, f2, mcc, f3, rd, f4, ff, f5.
  repeat split; assumption.
Qed.

(** X9: a returning registration stores the flag defaults: it leaves
    [EnableFifoCache] false and [DefaultValidity] zero whatever they held,
    leaves the override [Cache] as it was, and each sub-configuration is
    what its own registration made of it, the five registrations running
    in the order Background, Memcache, MemcacheClient, Redis, Fifocache on
    the flag set the one before handed on. *)
Theorem RegisterFlagsWithPrefix_resets `{Flags} (prefix description : string)
    (f : FlagSet) (cfg cfg' : Config) (f' : FlagSet) :
  RegisterFlagsWithPrefix prefix description f cfg = Some (cfg', f') ->
  EnableFifoCache cfg' = false
  /\ DefaultValidity cfg' = 0
  /\ Cache_ cfg' = Cache_ cfg
  /\ exists f1 f2 f3 f4 f5,
       Background_RegisterFlagsWithPrefix prefix description f (Background cfg)
       = Some (Background cfg', f1)
       /\ Memcache_RegisterFlagsWithPrefix prefix description f1 (Memcache cfg)
          = Some (Memcache cfg', f2)
       /\ MemcacheClient_RegisterFlagsWithPrefix prefix description f2 (MemcacheClient cfg)
          = Some (MemcacheClient cfg', f3)
       /\ Redis_RegisterFlagsWithPrefix prefix description f3 (Redis cfg)
          = Some (Redis cfg', f4)
       /\ Fifocache_RegisterFlagsWithPrefix prefix description f4 (Fifocache cfg)
          = Some (Fifocache cfg', f5).
Proof.
  intros R. apply RegisterFlagsWithPrefix_result in R.
  destruct R as (bg & f1 & mc & f2 & mcc & f3 & rd & f4 & ff & f5
                 & E1 & E2 & E3 & E4 & E5 & ->).
  simpl. repeat split.
  exists f1, f2, f3, f4, f5. repeat split; assumption.
Qed.

Lemma RegisterFlagsWithPrefix_resets_witness :
  EnableFifoCache registeredSample = false
  /\ DefaultValidity registeredSample = 0
  /\ Cache_ registeredSample = Cache_ (sampleConfig true "x" "")
  /\ exists f1 f2 f3 f4 f5,
       @Background_RegisterFlagsWithPrefix listFlags "store." "" []
         (Background (sampleConfig true "x" ""))
       = Some (Background registeredSample, f1)
       /\ @Memcache_RegisterFlagsWithPrefix listFlags "store." "" f1
            (Memcache (sampleConfig true "x" ""))
          = Some (Memcache registeredSample, f2)
       /\ @MemcacheClient_RegisterFlagsWithPrefix listFlags "store." "" f2
            (MemcacheClient (sampleConfig true "x" ""))
          = Some (MemcacheClient registeredSample, f3)
       /\ @Redis_RegisterFlagsWithPrefix listFlags "store." "" f3
            (Redis (sampleConfig true "x" ""))
          = Some (Redis registeredSample, f4)
       /\ @Fifocache_RegisterFlagsWithPrefix listFlags "store." "" f4
            (Fifocache (sampleConfig true "x" ""))
          = Some (Fifocache registeredSample, f5).
Proof.
  apply (@RegisterFlagsWithPrefix_resets listFlags "store." "" []
           (sampleConfig true "x" "") registeredSample
           ["store.default-validity"; "store.cache.enable-fifocache"]).
  reflexivity.
Defined.

(** X10: [New] on a configuration as the registration leaves it (before
    any flag is parsed into it) never builds the local tier and never adds
    the outer [Instrument]: without override it returns the error or what
    [NewTiered] gives for at most one tier, a remote one. *)
Theorem New_after_RegisterFlagsWithPrefix `{Flags} (prefix description : string)
    (f : FlagSet) (cfg cfg' : Config) (f' : FlagSet) (c : Cache) :
  RegisterFlagsWithPrefix prefix description f cfg = Some (cfg', f') ->
  Cache_ cfg = None ->
  New cfg' = (Some c, None) ->
  c = NewTiered (tiers cfg')
  /\ (List.length (tiers cfg') <= 1)%nat
  /\ forallb isRemote (tiers cfg') = true
  /\ Prefix cfg' = prefix.
Proof.
  intros R Hc HN. apply RegisterFlagsWithPrefix_result in R.
  destruct R as (bg & f1 & mc & f2 & mcc & f3 & rd & f4 & ff & f5
                 & _ & _ & _ & _ & _ & ->).
  rewrite New_eq in HN. simpl in HN. rewrite Hc in HN.
  rewrite tiers_eq in *. unfold tiersSpec in *. simpl in *.
  destruct (nonempty (Host mcc)); destruct (nonempty (Endpoint rd));
    simpl in *; try discriminate HN; injection HN as <-;
    repeat split; lia.
Qed.

Lemma New_after_RegisterFlagsWithPrefix_witness :
  NewTiered [memcacheTier registeredSample]
  = NewTiered (tiers registeredSample)
  /\ (List.length (tiers registeredSample)
      <= 1)%nat
  /\ forallb isRemote (tiers registeredSample) = true
  /\ Prefix registeredSample = "store.".
Proof.
  apply (@New_after_RegisterFlagsWithPrefix listFlags "store." "" []
           (sampleConfig true "x" "") registeredSample
           ["store.default-validity"; "store.cache.enable-fifocache"]);
    reflexivity.
Defined.
